(** * ONNX model utilities: version check and export scripts

    A shallow embedding of the two scripts of the repository,

    - [models/scripts/check_all_models.py], which loads each configured ONNX
      file, prints its IR and opset versions and a compatibility line, and
      ends with a static summary, and
    - [models/export_to_onnx.py], which exports the YOLOv12n weights to ONNX,

    together with the properties their specification states about them.

    The scripts are sequences of [print] calls around calls into two
    third-party libraries.  They are embedded in a small monad carrying the
    part of the Python process the scripts can observe: the lines written to
    standard output, the calls made into the libraries, and a pending
    exception.  What the libraries answer is a parameter ([host]). *)

From Stdlib Require Import ZArith String List Bool Lia DecimalString.
From Stdlib Require Import DecimalPos DecimalZ.
Import ListNotations.

Local Open Scope Z_scope.
Local Open Scope string_scope.
Local Open Scope list_scope.

(* ===================================================================== *)
(** ** The fragment of Python the scripts use *)
(* ===================================================================== *)

Module Py.

(** Exceptions the scripts raise or catch.  Each [Exception] carries the
    text [str(e)] gives.  [SystemExit] is what [sys.exit(code)] raises; it
    derives from [BaseException] only, so [except Exception] lets it
    through. *)
Inductive exn : Type :=
| ImportError (msg : string)
| FileNotFoundError (msg : string)
| IndexError (msg : string)
| OtherException (msg : string)
| SystemExit (code : Z).

(** [Z] printed the way [str(int)] and an f-string field print it. *)
Definition str_int (z : Z) : string := NilZero.string_of_int (Z.to_int z).

(** [str(e)], as [{e}] formats it in an f-string. *)
Definition str_exn (e : exn) : string :=
  match e with
  | ImportError msg | FileNotFoundError msg
  | IndexError msg | OtherException msg => msg
  | SystemExit code => str_int code
  end.

(** [isinstance(e, C)] for the three classes named in [except] clauses. *)
Definition is_ImportError (e : exn) : bool :=
  match e with ImportError _ => true | _ => false end.

Definition is_FileNotFoundError (e : exn) : bool :=
  match e with FileNotFoundError _ => true | _ => false end.

Definition is_Exception (e : exn) : bool :=
  match e with SystemExit _ => false | _ => true end.

(** Calls into the third-party libraries, in the order they are made. *)
Inductive call : Type :=
| onnx_load_call (path : string)
| YOLO_call (weights : string)
| export_call (weights : string) (format : string) (simplify : bool) (opset : Z).

(** The observable state of the process: one entry of [stdout] per
    [print] call, one entry of [calls] per library call. *)
Record world : Type := mkWorld {
  stdout : list string;
  calls : list call
}.

Definition start : world := {| stdout := []; calls := [] |}.

(** A statement either completes with a value or leaves an exception
    pending; what was printed and called before stays in the world. *)
Definition M (A : Type) : Type := world -> (exn + A) * world.

Definition ret {A : Type} (a : A) : M A := fun w => (inr a, w).

Definition bind {A B : Type} (m : M A) (k : A -> M B) : M B :=
  fun w =>
    match m w with
    | (inr a, w') => k a w'
    | (inl e, w') => (inl e, w')
    end.

Definition raise {A : Type} (e : exn) : M A := fun w => (inl e, w).

(** A library call's answer, lifted into a statement. *)
Definition lift {A : Type} (r : exn + A) : M A := fun w => (r, w).

(** [print(line)]; writing to standard output is taken not to fail. *)
Definition print (line : string) : M unit :=
  fun w => (inr tt, {| stdout := stdout w ++ [line]; calls := calls w |}).

Definition record_call (c : call) : M unit :=
  fun w => (inr tt, {| stdout := stdout w; calls := calls w ++ [c] |}).

Definition sys_exit {A : Type} (code : Z) : M A := raise (SystemExit code).

(** One [except C as e: ...] clause. *)
Record handler (A : Type) : Type := except {
  catches : exn -> bool;
  on_catch : exn -> M A
}.
Arguments except {A} _ _.
Arguments catches {A} _ _.
Arguments on_catch {A} _ _.

(** [try: body  except ...: ...]: the first clause whose class matches
    runs; with no matching clause the exception stays pending. *)
Definition try_except {A : Type} (body : M A) (clauses : list (handler A)) : M A :=
  fun w =>
    match body w with
    | (inr a, w') => (inr a, w')
    | (inl e, w') =>
        match find (fun h => catches h e) clauses with
        | Some h => on_catch h e w'
        | None => (inl e, w')
        end
    end.

(** [for x in xs: body]. *)
Fixpoint for_each {A : Type} (xs : list A) (body : A -> M unit) : M unit :=
  match xs with
  | [] => ret tt
  | x :: rest => bind (body x) (fun _ => for_each rest body)
  end.

(** [xs[i]] on a sequence; out of range raises [IndexError] with the
    text the container's implementation gives it. *)
Definition getitem {A : Type} (index_error_text : string) (xs : list A) (i : nat) : M A :=
  match nth_error xs i with
  | Some x => ret x
  | None => raise (IndexError index_error_text)
  end.

(** An f-string: its literal pieces and formatted fields, in order. *)
Definition fstr (pieces : list string) : string := String.concat "" pieces.

(** [s * n] on strings. *)
Fixpoint str_mul (s : string) (n : nat) : string :=
  match n with
  | O => ""
  | S n' => s ++ str_mul s n'
  end.

(** The status the interpreter exits with: 0 when the script runs to its
    end, the argument of [sys.exit], 1 for any other uncaught
    exception. *)
Definition exit_code (r : exn + unit) : Z :=
  match r with
  | inr _ => 0
  | inl (SystemExit code) => code
  | inl _ => 1
  end.

Module Notations.
Notation "x <- c ;; k" := (bind c (fun x => k))
  (at level 61, c at next level, right associativity).
Notation "c ;; k" := (bind c (fun _ => k))
  (at level 61, right associativity).
End Notations.

End Py.

Import Py Py.Notations.

(* ===================================================================== *)
(** ** models/scripts/check_all_models.py *)
(* ===================================================================== *)

Module CheckAllModels.

(** The two fields of an ONNX [ModelProto] the script reads. *)
Record OperatorSetId : Type := mkOpset {
  domain : string;
  version : Z
}.

Record ModelProto : Type := mkModel {
  ir_version : Z;
  opset_import : list OperatorSetId
}.

(** How [onnx.load(path)] can fail: the file is not there
    ([FileNotFoundError]), or any other [Exception] (a decode error, a
    permission error, ...). *)
Inductive load_failure : Type :=
| NoSuchFile (msg : string)
| BadFile (msg : string).

(** The machine the script runs on. *)
Record host : Type := mkHost {
  onnx_installed : bool;
  disk : string -> load_failure + ModelProto;
  index_error_text : string
}.

(** [import onnx]. *)
Definition import_onnx (h : host) : M unit :=
  if onnx_installed h then ret tt
  else raise (ImportError "No module named 'onnx'").

(** [onnx.load(path)]. *)
Definition onnx_load (h : host) (path : string) : M ModelProto :=
  record_call (onnx_load_call path) ;;
  match disk h path with
  | inr model => ret model
  | inl (NoSuchFile msg) => raise (FileNotFoundError msg)
  | inl (BadFile msg) => raise (OtherException msg)
  end.

(** The [models] dictionary, as [models.items()] enumerates it. *)
Definition models : list (string * string) :=
  [ ("YOLO", "../.cache/yolo/yolo12n.onnx");
    ("OSNet", "../.cache/reid/osnet_x0_25.onnx") ].

(** Lines 33 to 36, the [# Check compatibility] branch. *)
Definition check_compatibility (ir_version : Z) : M unit :=
  if (ir_version <=? 9)%Z
  then print "  ✓ Compatible with ONNX Runtime 1.16.3"
  else print (fstr ["  ✗ Requires ONNX Runtime 1.17+ (IR version ";
                    str_int ir_version; ")"]).

(** The body of the [for name, path in models.items()] loop. *)
Definition check_model (h : host) (name path : string) : M unit :=
  try_except
    (model <- onnx_load h path ;;
     let ir_version := ir_version model in
     entry <- getitem (index_error_text h) (opset_import model) 0 ;;
     let opset_version := version entry in
     print (fstr [name; " ("; path; "):"]) ;;
     print (fstr ["  IR version: "; str_int ir_version]) ;;
     print (fstr ["  Opset version: "; str_int opset_version]) ;;
     check_compatibility ir_version ;;
     print "")
    [ except is_FileNotFoundError (fun _ =>
        print (fstr [name; ": Model not found at "; path]) ;;
        print "");
      except is_Exception (fun e =>
        print (fstr [name; ": Error loading model - "; str_exn e]) ;;
        print "") ].

(** The whole script, for any dictionary of models. *)
Definition check_all_models_on (items : list (string * string)) (h : host) : M unit :=
  try_except (import_onnx h)
    [ except is_ImportError (fun _ =>
        print "ERROR: onnx package not installed" ;;
        print "Install with: pip install onnx" ;;
        sys_exit 1) ] ;;
  print (str_mul "=" 60) ;;
  print "ONNX Model Version Check" ;;
  print (str_mul "=" 60) ;;
  print "" ;;
  for_each items (fun item => check_model h (fst item) (snd item)) ;;
  print (str_mul "=" 60) ;;
  print "ONNX Runtime Compatibility" ;;
  print (str_mul "=" 60) ;;
  print "" ;;
  print "ONNX Runtime 1.16.3: Supports IR ≤ 9, Opset ≤ 18" ;;
  print "ONNX Runtime 1.19.0: Supports IR ≤ 10, Opset ≤ 21" ;;
  print "" ;;
  print "Recommendation:" ;;
  print "  - If all models have IR ≤ 9: Keep 1.16.3" ;;
  print "  - If any model has IR = 10: Upgrade to 1.19.0".

Definition check_all_models : host -> M unit := check_all_models_on models.

End CheckAllModels.

(* ===================================================================== *)
(** ** models/export_to_onnx.py *)
(* ===================================================================== *)

Module ExportToOnnx.

(** The object [YOLO(weights)] builds; the script only passes it on. *)
Record YOLO_model : Type := mkYOLO {
  weights : string
}.

(** The machine the script runs on: whether [ultralytics] imports, what
    the constructor raises (if anything), and what [model.export]
    answers: the written file's path, or an exception. *)
Record host : Type := mkHost {
  ultralytics_installed : bool;
  YOLO_init : string -> option exn;
  export_answer : string -> string -> bool -> Z -> exn + string
}.

(** [from ultralytics import YOLO]. *)
Definition import_YOLO (h : host) : M unit :=
  if ultralytics_installed h then ret tt
  else raise (ImportError "No module named 'ultralytics'").

(** [YOLO(weights)]. *)
Definition YOLO (h : host) (weights : string) : M YOLO_model :=
  record_call (YOLO_call weights) ;;
  match YOLO_init h weights with
  | None => ret (mkYOLO weights)
  | Some e => raise e
  end.

(** [model.export(format=..., simplify=..., opset=...)]. *)
Definition export (h : host) (model : YOLO_model)
           (format : string) (simplify : bool) (opset : Z) : M string :=
  record_call (export_call (weights model) format simplify opset) ;;
  lift (export_answer h (weights model) format simplify opset).

Definition main (h : host) : M unit :=
  print "Loading YOLOv12n model..." ;;
  model <- YOLO h "yolo12n.pt" ;;
  print "Exporting to ONNX format with opset 14 (compatible with ONNX Runtime 1.16)..." ;;
  _ <- export h model "onnx" true 14 ;;
  print "Export complete! Model saved as: yolo12n.onnx" ;;
  print "Note: Exported with opset 14 for ONNX Runtime 1.16 compatibility".

(** The script run as [__main__]. *)
Definition export_to_onnx (h : host) : M unit :=
  import_YOLO h ;;
  main h.

End ExportToOnnx.

(* ===================================================================== *)
(** ** The specification's data model and operations

    These definitions follow the specification's sections 3 and 4, not the
    script; the theorems below compare them with the script. *)
(* ===================================================================== *)

Module Spec.

Import CheckAllModels.

Definition ModelDescriptor : Type := (string * string)%type.
Definition name (d : ModelDescriptor) : string := fst d.
Definition path (d : ModelDescriptor) : string := snd d.

Record VersionInfo : Type := mkVersionInfo {
  vi_ir_version : Z;
  vi_opset_version : Z
}.

Inductive CompatibilityVerdict : Type :=
| CompatibleWithCurrent
| RequiresUpgrade (minVersionLabel : string).

Inductive CheckResult : Type :=
| Success (info : VersionInfo) (verdict : CompatibilityVerdict)
| NotFound
| LoadError (message : string).

(** Section 4.1. *)
Definition classify (ir_version : Z) : CompatibilityVerdict :=
  if (ir_version <=? 9)%Z then CompatibleWithCurrent
  else RequiresUpgrade "1.17+".

(** Section 4.2, steps 2 to 4, on the outcome of step 1. *)
Definition check (h : host) (outcome : load_failure + ModelProto) : CheckResult :=
  match outcome with
  | inl (NoSuchFile _) => NotFound
  | inl (BadFile message) => LoadError message
  | inr model =>
      match opset_import model with
      | [] => LoadError (index_error_text h)
      | first :: _ =>
          Success (mkVersionInfo (ir_version model) (version first))
                  (classify (ir_version model))
      end
  end.

(** Section 4.2: one result per descriptor, in input order. *)
Definition run (h : host) (descriptors : list ModelDescriptor) : list CheckResult :=
  map (fun d => check h (disk h (path d))) descriptors.




End Spec.

(* ===================================================================== *)
(** ** How the script reports a result

    The lines [check_model] prints for each kind of result; these are the
    script's own texts, arranged by the result they report. *)
(* ===================================================================== *)

Module Report.

Import Spec.

Definition verdict_line (ir_version : Z) (v : CompatibilityVerdict) : string :=
  match v with
  | CompatibleWithCurrent => "  ✓ Compatible with ONNX Runtime 1.16.3"
  | RequiresUpgrade label =>
      fstr ["  ✗ Requires ONNX Runtime "; label; " (IR version ";
            str_int ir_version; ")"]
  end.

Definition report (name path : string) (r : CheckResult) : list string :=
  match r with
  | Success info verdict =>
      [ fstr [name; " ("; path; "):"];
        fstr ["  IR version: "; str_int (vi_ir_version info)];
        fstr ["  Opset version: "; str_int (vi_opset_version info)];
        verdict_line (vi_ir_version info) verdict;
        "" ]
  | NotFound =>
      [ fstr [name; ": Model not found at "; path]; "" ]
  | LoadError message =>
      [ fstr [name; ": Error loading model - "; message]; "" ]
  end.

(** The report of a whole run: the blocks of its results, in order. *)
Definition report_all (descriptors : list ModelDescriptor)
           (results : list CheckResult) : list string :=
  concat (map (fun dr => report (name (fst dr)) (path (fst dr)) (snd dr))
              (combine descriptors results)).

Definition banner (title : string) : list string :=
  [ str_mul "=" 60; title; str_mul "=" 60; "" ].

Definition keep_line : string := "  - If all models have IR ≤ 9: Keep 1.16.3".
Definition upgrade_line : string := "  - If any model has IR = 10: Upgrade to 1.19.0".

(** Lines 46 to 55 of the script. *)
Definition summary_block : list string :=
  banner "ONNX Runtime Compatibility" ++
  [ "ONNX Runtime 1.16.3: Supports IR ≤ 9, Opset ≤ 18";
    "ONNX Runtime 1.19.0: Supports IR ≤ 10, Opset ≤ 21";
    "";
    "Recommendation:";
    keep_line;
    upgrade_line ].



End Report.

(* ===================================================================== *)
(** ** Worlds and sample machines *)
(* ===================================================================== *)

(** [w] after more lines were printed and more calls were made. *)
Definition extend (w : world) (lines : list string) (cs : list call) : world :=
  {| stdout := stdout w ++ lines; calls := calls w ++ cs |}.

(** The load calls a run over [items] makes. *)
Definition load_calls (items : list (string * string)) : list call :=
  map (fun item => onnx_load_call (snd item)) items.

Module Samples.

Import CheckAllModels.

Definition model_of (ir opset : Z) : ModelProto :=
  mkModel ir [mkOpset "" opset].

Definition missing (p : string) : load_failure :=
  NoSuchFile (fstr ["[Errno 2] No such file or directory: '"; p; "'"]).

(** Both configured models on disk, with the given IR versions. *)
Definition disk_with (yolo_ir osnet_ir : Z) (p : string) : load_failure + ModelProto :=
  if (p =? "../.cache/yolo/yolo12n.onnx")%string then inr (model_of yolo_ir 14)
  else if (p =? "../.cache/reid/osnet_x0_25.onnx")%string then inr (model_of osnet_ir 11)
  else inl (missing p).

Definition host_ir9 : host := mkHost true (disk_with 9 9) "list index out of range".

(** YOLO exported, OSNet not downloaded yet. *)
Definition host_osnet_missing : host :=
  mkHost true
    (fun p => if (p =? "../.cache/yolo/yolo12n.onnx")%string
              then inr (model_of 9 14) else inl (missing p))
    "list index out of range".


(** YOLO truncated on disk, OSNet with no opset import. *)
Definition host_broken : host :=
  mkHost true
    (fun p => if (p =? "../.cache/yolo/yolo12n.onnx")%string
              then inl (BadFile "Error parsing message")
              else if (p =? "../.cache/reid/osnet_x0_25.onnx")%string
              then inr (mkModel 9 [])
              else inl (missing p))
    "list index out of range".

Definition host_no_onnx : host :=
  mkHost false (disk_with 9 9) "list index out of range".

Definition export_ok : ExportToOnnx.host :=
  ExportToOnnx.mkHost true (fun _ => None) (fun _ _ _ _ => inr "yolo12n.onnx").

End Samples.

(** The verdict of a result [check] gives is [classify] of its IR
    version. *)
Definition checked (r : Spec.CheckResult) : Prop :=
  match r with
  | Spec.Success info verdict => verdict = Spec.classify (Spec.vi_ir_version info)
  | _ => True
  end.

Module EdgeSamples.

Import CheckAllModels.

(** A model whose first opset import is the ML domain, the default domain
    coming second. *)
Definition model_ml_first : ModelProto :=
  mkModel 9 [mkOpset "ai.onnx.ml" 3; mkOpset "" 18].

Definition host_ml_first : host :=
  mkHost true (fun _ => inr model_ml_first) "list index out of range".

(** The same IR version with a single import of version 3. *)
Definition host_single_import : host :=
  mkHost true (fun _ => inr (mkModel 9 [mkOpset "" 3])) "list index (0) out of range".


(** [ultralytics] is not installed. *)
Definition export_no_ultralytics : ExportToOnnx.host :=
  ExportToOnnx.mkHost false (fun _ => None) (fun _ _ _ _ => inr "yolo12n.onnx").

(** The weights file cannot be found or downloaded. *)
Definition export_no_weights : ExportToOnnx.host :=
  ExportToOnnx.mkHost true
    (fun _ => Some (FileNotFoundError "yolo12n.pt does not exist"))
    (fun _ _ _ _ => inr "yolo12n.onnx").

(** The exporter fails. *)
Definition export_fails : ExportToOnnx.host :=
  ExportToOnnx.mkHost true (fun _ => None)
    (fun _ _ _ _ => inl (OtherException "ONNX export failure")).

End EdgeSamples.

(* ===================================================================== *)
(** ** The scripts, run *)
(* ===================================================================== *)

Import CheckAllModels Spec Report.

Lemma extend_nil (w : world) : extend w [] [] = w.
Proof.
  destruct w as [out cs]. unfold extend. simpl.
  now rewrite !app_nil_r.
Qed.

Lemma extend_extend (w : world) (l1 l2 : list string) (c1 c2 : list call) :
  extend (extend w l1 c1) l2 c2 = extend w (l1 ++ l2) (c1 ++ c2).
Proof.
  unfold extend. simpl. now rewrite !app_assoc.
Qed.

(** Two worlds built from the same start by appending are equal when the
    appended lists are. *)
Ltac same_world :=
  unfold extend; cbn [stdout calls];
  repeat rewrite <- app_assoc; cbn [app];
  repeat rewrite app_nil_r;
  reflexivity.

(** Runs a straight-line sequence of statements. *)
Ltac run :=
  cbv [bind ret raise lift print record_call sys_exit getitem nth_error
       try_except find catches on_catch
       is_FileNotFoundError is_Exception is_ImportError str_exn];
  cbn [stdout calls].

Lemma onnx_load_runs (h : host) (p : string) (w : world) :
  onnx_load h p w =
  (match disk h p with
   | inr model => inr model
   | inl (NoSuchFile msg) => inl (FileNotFoundError msg)
   | inl (BadFile msg) => inl (OtherException msg)
   end, extend w [] [onnx_load_call p]).
Proof.
  unfold onnx_load.
  destruct (disk h p) as [[msg | msg] | model]; run; f_equal; same_world.
Qed.

(** The compatibility branch prints the line of the verdict the
    specification's [classify] gives. *)
Lemma check_compatibility_classify (v : Z) (w : world) :
  check_compatibility v w = (inr tt, extend w [verdict_line v (classify v)] []).
Proof.
  unfold check_compatibility, classify.
  destruct (v <=? 9)%Z; run; f_equal; same_world.
Qed.

(** One pass of the loop body always completes; it makes one load call and
    prints the report of the result the specification assigns to the
    file. *)
Lemma check_model_runs (h : host) (n p : string) (w : world) :
  check_model h n p w =
  (inr tt, extend w (report n p (check h (disk h p))) [onnx_load_call p]).
Proof.
  unfold check_model, check, onnx_load.
  destruct (disk h p) as [[msg | msg] | model].
  - run. f_equal. same_world.
  - run. f_equal. same_world.
  - destruct (opset_import model) as [| first rest] eqn:Eo.
    + run. rewrite Eo. run. f_equal. same_world.
    + run. rewrite Eo. rewrite check_compatibility_classify.
      f_equal. same_world.
Qed.

Lemma report_all_cons (d : ModelDescriptor) (ds : list ModelDescriptor)
      (r : CheckResult) (rs : list CheckResult) :
  report_all (d :: ds) (r :: rs) = report (name d) (path d) r ++ report_all ds rs.
Proof. reflexivity. Qed.

(** The loop always completes: it prints the blocks of the results in the
    order of the dictionary and makes one load call per entry. *)
Lemma loop_runs (h : host) (items : list (string * string)) (w : world) :
  for_each items (fun item => check_model h (fst item) (snd item)) w =
  (inr tt, extend w (report_all items (Spec.run h items)) (load_calls items)).
Proof.
  revert w. induction items as [| item rest IH]; intros w.
  - cbn. now rewrite extend_nil.
  - cbn [for_each]. unfold bind. rewrite check_model_runs, IH.
    unfold Spec.run. cbn [map]. rewrite report_all_cons.
    f_equal. unfold load_calls. cbn [map]. rewrite extend_extend. reflexivity.
Qed.

(** With [onnx] importable, the script runs to its end. *)
Lemma script_runs_installed (h : host) (items : list (string * string)) (w : world) :
  onnx_installed h = true ->
  check_all_models_on items h w =
  (inr tt,
   extend w (banner "ONNX Model Version Check"
             ++ report_all items (Spec.run h items)
             ++ summary_block)
          (load_calls items)).
Proof.
  intros Hi. unfold check_all_models_on, import_onnx. rewrite Hi.
  remember (for_each items _) as loop eqn:El.
  run. rewrite El, loop_runs. run.
  f_equal. unfold banner, summary_block, keep_line, upgrade_line. same_world.
Qed.

(** Without it, the script stops at the import. *)
Lemma script_runs_missing (h : host) (items : list (string * string)) (w : world) :
  onnx_installed h = false ->
  check_all_models_on items h w =
  (inl (SystemExit 1),
   extend w ["ERROR: onnx package not installed";
             "Install with: pip install onnx"] []).
Proof.
  intros Hi. unfold check_all_models_on, import_onnx. rewrite Hi.
  run. f_equal. same_world.
Qed.

(* ===================================================================== *)
(** ** Classification (section 4.1) *)
(* ===================================================================== *)




(* ===================================================================== *)
(** ** One model (section 4.2, steps 1 to 4) *)
(* ===================================================================== *)

(** The result of a file that loads and has an opset import at index 0. *)
Lemma check_loaded (h : host) (p : string) (model : ModelProto)
      (first : OperatorSetId) :
  disk h p = inr model ->
  nth_error (opset_import model) 0 = Some first ->
  check h (disk h p) =
    Success (mkVersionInfo (ir_version model) (version first))
            (classify (ir_version model)).
Proof.
  intros Hd Ho. rewrite Hd. unfold check.
  destruct (opset_import model) as [| o rest]; [discriminate |].
  cbn in Ho. now inversion Ho.
Qed.



(** After the pass for its first entry, the loop goes on with the rest. *)
Lemma loop_continues (h : host) (n p : string) (rest : list (string * string))
      (w : world) :
  for_each ((n, p) :: rest) (fun item => check_model h (fst item) (snd item)) w =
  for_each rest (fun item => check_model h (fst item) (snd item))
           (extend w (report n p (check h (disk h p))) [onnx_load_call p]).
Proof.
  cbn [for_each]. unfold bind. cbn [fst snd]. now rewrite check_model_runs.
Qed.

(** C4.  When [onnx.load] fails, the pass completes and reports the failure
    by its cause: a missing file gives [NotFound] and the line
    "<name>: Model not found at <path>"; any other failure with text [msg]
    gives [LoadError msg] and the line "<name>: Error loading model - <msg>",
    the text unchanged.  Either way a line is printed and the loop goes on
    with the next entry. *)
Theorem load_failure_reported_by_cause (h : host) (n p : string)
        (rest : list (string * string)) (w : world) (f : load_failure) :
  disk h p = inl f ->
  let result := match f with
                | NoSuchFile _ => NotFound
                | BadFile msg => LoadError msg
                end in
  let lines := match f with
               | NoSuchFile _ => [fstr [n; ": Model not found at "; p]; ""]
               | BadFile msg => [fstr [n; ": Error loading model - "; msg]; ""]
               end in
  check h (disk h p) = result /\
  check_model h n p w = (inr tt, extend w lines [onnx_load_call p]) /\
  for_each ((n, p) :: rest) (fun item => check_model h (fst item) (snd item)) w =
  for_each rest (fun item => check_model h (fst item) (snd item))
           (extend w lines [onnx_load_call p]).
Proof.
  intros Hd result lines.
  assert (Hc : check h (disk h p) = result).
  { rewrite Hd. subst result. destruct f; reflexivity. }
  assert (Hl : report n p result = lines).
  { subst result lines. destruct f; reflexivity. }
  split; [exact Hc |]. split.
  - now rewrite check_model_runs, Hc, Hl.
  - now rewrite loop_continues, Hc, Hl.
Qed.

Lemma load_failure_reported_by_cause_witness :
  check_model Samples.host_broken "YOLO" "../.cache/yolo/yolo12n.onnx" start =
  (inr tt,
   extend start ["YOLO: Error loading model - Error parsing message"; ""]
          [onnx_load_call "../.cache/yolo/yolo12n.onnx"]) /\
  check_model Samples.host_osnet_missing "OSNet" "../.cache/reid/osnet_x0_25.onnx" start =
  (inr tt,
   extend start ["OSNet: Model not found at ../.cache/reid/osnet_x0_25.onnx"; ""]
          [onnx_load_call "../.cache/reid/osnet_x0_25.onnx"]).
Proof.
  split.
  - apply (load_failure_reported_by_cause
             Samples.host_broken "YOLO" "../.cache/yolo/yolo12n.onnx" [] start
             (BadFile "Error parsing message") eq_refl).
  - apply (load_failure_reported_by_cause
             Samples.host_osnet_missing "OSNet" "../.cache/reid/osnet_x0_25.onnx"
             [] start
             (Samples.missing "../.cache/reid/osnet_x0_25.onnx") eq_refl).
Defined.





(* ===================================================================== *)
(** ** The loop over the models (section 4.2) *)
(* ===================================================================== *)


Lemma report_all_run (h : host) (items : list ModelDescriptor) :
  report_all items (Spec.run h items) =
  concat (map (fun d => report (name d) (path d) (check h (disk h (path d)))) items).
Proof.
  induction items as [| d rest IH]; [reflexivity |].
  unfold Spec.run in *. cbn [map]. rewrite report_all_cons. cbn [concat].
  now rewrite IH.
Qed.



(** C9.  Each pass of the loop calls [onnx.load] once, whatever the outcome,
    and the calls of a run are those for the entries of the dictionary, one
    per entry and in order: none is skipped after a failure and none is
    repeated. *)
Theorem each_model_loaded_once (h : host) (items : list (string * string)) (w : world) :
  (forall n p, calls (snd (check_model h n p w)) = calls w ++ [onnx_load_call p]) /\
  calls (snd (for_each items (fun item => check_model h (fst item) (snd item)) w)) =
    calls w ++ map (fun item => onnx_load_call (snd item)) items /\
  (onnx_installed h = true ->
   calls (snd (check_all_models_on items h w)) =
     calls w ++ map (fun item => onnx_load_call (snd item)) items).
Proof.
  split; [| split].
  - intros n p. now rewrite check_model_runs.
  - now rewrite loop_runs.
  - intros Hi. now rewrite script_runs_installed.
Qed.

Lemma each_model_loaded_once_witness :
  calls (snd (check_all_models Samples.host_broken start)) =
  [ onnx_load_call "../.cache/yolo/yolo12n.onnx";
    onnx_load_call "../.cache/reid/osnet_x0_25.onnx" ].
Proof.
  apply (proj2 (proj2 (each_model_loaded_once Samples.host_broken models start))).
  reflexivity.
Defined.

(* ===================================================================== *)
(** ** The script as a whole *)
(* ===================================================================== *)







(* ===================================================================== *)
(** ** The export script *)
(* ===================================================================== *)

(** Whatever the libraries answer, the script calls [export] at most once,
    and only with [format='onnx'], [simplify=True] and [opset=14]. *)
Lemma export_calls_fixed (h : ExportToOnnx.host) (w : world) :
  exists cs,
    calls (snd (ExportToOnnx.export_to_onnx h w)) = calls w ++ cs /\
    forall wt f s o, In (export_call wt f s o) cs ->
                     wt = "yolo12n.pt" /\ f = "onnx" /\ s = true /\ o = 14.
Proof.
  unfold ExportToOnnx.export_to_onnx, ExportToOnnx.import_YOLO, ExportToOnnx.main,
    ExportToOnnx.YOLO, ExportToOnnx.export.
  destruct (ExportToOnnx.ultralytics_installed h).
  - destruct (ExportToOnnx.YOLO_init h "yolo12n.pt") as [e |].
    + exists [YOLO_call "yolo12n.pt"]. run. cbn [snd calls]. split; [reflexivity |].
      intros wt f s o [E | []]. discriminate.
    + exists [YOLO_call "yolo12n.pt"; export_call "yolo12n.pt" "onnx" true 14].
      run. cbn [ExportToOnnx.weights].
      destruct (ExportToOnnx.export_answer h "yolo12n.pt" "onnx" true 14) as [e | out];
        cbn [snd calls]; (split; [now rewrite <- !app_assoc |]);
        intros wt f s o [E | [E | []]]; try discriminate;
        inversion E; subst; repeat split.
  - exists []. run. cbn [snd calls]. split; [now rewrite app_nil_r |].
    intros wt f s o [].
Qed.

(** C8.  The script calls [export] with [format='onnx'], [simplify=True] and
    [opset=14] and with no other arguments in any run; when the import, the
    constructor and that call succeed, it runs to its end and its last two
    lines are the completion message naming [yolo12n.onnx] and the note on
    opset 14 and ONNX Runtime 1.16. *)
Theorem export_reports_completion (h : ExportToOnnx.host) (w : world) (out : string) :
  ExportToOnnx.ultralytics_installed h = true ->
  ExportToOnnx.YOLO_init h "yolo12n.pt" = None ->
  ExportToOnnx.export_answer h "yolo12n.pt" "onnx" true 14 = inr out ->
  ExportToOnnx.export_to_onnx h w =
    (inr tt,
     extend w
       [ "Loading YOLOv12n model...";
         "Exporting to ONNX format with opset 14 (compatible with ONNX Runtime 1.16)...";
         "Export complete! Model saved as: yolo12n.onnx";
         "Note: Exported with opset 14 for ONNX Runtime 1.16 compatibility" ]
       [ YOLO_call "yolo12n.pt"; export_call "yolo12n.pt" "onnx" true 14 ]) /\
  (forall h' w',
     exists cs,
       calls (snd (ExportToOnnx.export_to_onnx h' w')) = calls w' ++ cs /\
       forall wt f s o, In (export_call wt f s o) cs ->
                        wt = "yolo12n.pt" /\ f = "onnx" /\ s = true /\ o = 14).
Proof.
  intros Hi Hy He. split; [| intros h' w'; apply export_calls_fixed].
  unfold ExportToOnnx.export_to_onnx, ExportToOnnx.import_YOLO, ExportToOnnx.main,
    ExportToOnnx.YOLO, ExportToOnnx.export.
  rewrite Hi, Hy. run. cbn [ExportToOnnx.weights]. rewrite He.
  f_equal. same_world.
Qed.

Lemma export_reports_completion_witness :
  stdout (snd (ExportToOnnx.export_to_onnx Samples.export_ok start)) =
  [ "Loading YOLOv12n model...";
    "Exporting to ONNX format with opset 14 (compatible with ONNX Runtime 1.16)...";
    "Export complete! Model saved as: yolo12n.onnx";
    "Note: Exported with opset 14 for ONNX Runtime 1.16 compatibility" ].
Proof.
  rewrite (proj1 (export_reports_completion Samples.export_ok start "yolo12n.onnx"
                    eq_refl eq_refl eq_refl)).
  reflexivity.
Defined.


(* ===================================================================== *)
(** ** Further properties of the check script *)
(* ===================================================================== *)

Lemma append_cancel_l (s a b : string) : (s ++ a = s ++ b)%string -> a = b.
Proof.
  induction s as [| c s IH]; cbn; intros H; [exact H |].
  injection H as H. now apply IH.
Qed.


(** Two integers print the same only when they are equal. *)
Lemma str_int_inj (a b : Z) : str_int a = str_int b -> a = b.
Proof.
  unfold str_int. intros H.
  assert (Hnn : forall z, Z.to_int z <> Decimal.Pos Decimal.Nil /\
                          Z.to_int z <> Decimal.Neg Decimal.Nil).
  { intros [| q | q]; cbn; split; try discriminate;
      intros E; injection E as E; now apply (Unsigned.to_uint_nonnil q). }
  apply DecimalZ.to_int_inj.
  assert (Hs : Some (Z.to_int a) = Some (Z.to_int b)).
  { rewrite <- (NilZero.isi (Z.to_int a)) by apply Hnn.
    rewrite <- (NilZero.isi (Z.to_int b)) by apply Hnn.
    now rewrite H. }
  now injection Hs.
Qed.

Lemma check_checked (h : host) (o : load_failure + ModelProto) : checked (check h o).
Proof.
  destruct o as [[msg | msg] | model]; cbn; try exact I.
  destruct (opset_import model); cbn; [exact I | reflexivity].
Qed.

Lemma report_inj (n p : string) (r1 r2 : CheckResult) :
  checked r1 -> checked r2 -> report n p r1 = report n p r2 -> r1 = r2.
Proof.
  intros H1 H2 E.
  destruct r1 as [[ir1 op1] v1 | | m1], r2 as [[ir2 op2] v2 | | m2];
    cbn in H1, H2; cbn -[str_int] in E; try discriminate;
    try reflexivity;
    injection E; intros;
    repeat match goal with
           | H : (n ++ _)%string = (n ++ _)%string |- _ =>
               apply append_cancel_l in H; try discriminate H
           | H : str_int _ = str_int _ |- _ => apply str_int_inj in H
           end.
  - now subst.
  - match goal with H : String _ _ = String _ _ |- _ => injection H as H end.
    now subst.
Qed.

(** X1.  The block a pass prints tells the result: when two machines make
    the pass for the same entry print the same lines, the file was missing
    on both, or failed on both with the same text, or loaded on both with
    the same IR version and the same first opset version. *)
Theorem printed_block_determines_result (h1 h2 : host) (n p : string) :
  stdout (snd (check_model h1 n p start)) = stdout (snd (check_model h2 n p start)) ->
  check h1 (disk h1 p) = check h2 (disk h2 p).
Proof.
  rewrite !check_model_runs. cbn [snd extend stdout start app].
  apply report_inj; apply check_checked.
Qed.

Lemma printed_block_determines_result_witness :
  check Samples.host_ir9 (disk Samples.host_ir9 "../.cache/yolo/yolo12n.onnx") =
  check Samples.host_osnet_missing
        (disk Samples.host_osnet_missing "../.cache/yolo/yolo12n.onnx").
Proof.
  apply (printed_block_determines_result
           Samples.host_ir9 Samples.host_osnet_missing
           "YOLO" "../.cache/yolo/yolo12n.onnx").
  vm_compute. reflexivity.
Defined.

(** X2.  Of the opset-import list only the version of the entry at index 0
    is read: two loaded models with the same IR version whose first
    entries have the same version make the pass print the same block,
    whatever the domain of that entry is and whatever entries follow it. *)
Theorem only_first_opset_import_read
        (h1 h2 : host) (n p : string) (w : world)
        (m1 m2 : ModelProto) (o1 o2 : OperatorSetId) :
  disk h1 p = inr m1 -> disk h2 p = inr m2 ->
  ir_version m1 = ir_version m2 ->
  nth_error (opset_import m1) 0 = Some o1 ->
  nth_error (opset_import m2) 0 = Some o2 ->
  version o1 = version o2 ->
  check_model h1 n p w = check_model h2 n p w.
Proof.
  intros Hd1 Hd2 Hir Ho1 Ho2 Hv.
  rewrite !check_model_runs.
  rewrite (check_loaded h1 p m1 o1 Hd1 Ho1), (check_loaded h2 p m2 o2 Hd2 Ho2).
  now rewrite Hir, Hv.
Qed.

Lemma only_first_opset_import_read_witness :
  check_model EdgeSamples.host_ml_first "YOLO" "../.cache/yolo/yolo12n.onnx" start =
  check_model EdgeSamples.host_single_import "YOLO" "../.cache/yolo/yolo12n.onnx" start /\
  nth 2 (stdout (snd (check_model EdgeSamples.host_ml_first
                        "YOLO" "../.cache/yolo/yolo12n.onnx" start))) "" =
  "  Opset version: 3".
Proof.
  split.
  - apply (only_first_opset_import_read
             EdgeSamples.host_ml_first EdgeSamples.host_single_import
             "YOLO" "../.cache/yolo/yolo12n.onnx" start
             EdgeSamples.model_ml_first (mkModel 9 [mkOpset "" 3])
             (mkOpset "ai.onnx.ml" 3) (mkOpset "" 3)
             eq_refl eq_refl eq_refl eq_refl eq_refl eq_refl).
  - vm_compute. reflexivity.
Defined.





(** X5.  The loop keeps no state between passes: run over a dictionary
    that is two dictionaries one after the other, it prints what it prints
    for the first followed by what it prints for the second, and makes the
    load calls of the first followed by those of the second. *)
Theorem loop_over_concatenation (h : host) (items1 items2 : list (string * string)) :
  let loop items := for_each items (fun item => check_model h (fst item) (snd item)) in
  stdout (snd (loop (items1 ++ items2) start)) =
    stdout (snd (loop items1 start)) ++ stdout (snd (loop items2 start)) /\
  calls (snd (loop (items1 ++ items2) start)) =
    calls (snd (loop items1 start)) ++ calls (snd (loop items2 start)) /\
  forall w, loop (items1 ++ items2) w = loop items2 (snd (loop items1 w)).
Proof.
  intros loop. subst loop. cbv beta.
  assert (Hr : forall a b, report_all (a ++ b) (Spec.run h (a ++ b)) =
                           report_all a (Spec.run h a) ++ report_all b (Spec.run h b)).
  { intros a b. rewrite !report_all_run, map_app, concat_app. reflexivity. }
  assert (Hc : forall a b, load_calls (a ++ b) = load_calls a ++ load_calls b).
  { intros a b. unfold load_calls. apply map_app. }
  split; [| split].
  - rewrite !loop_runs. cbn [snd extend stdout start app]. apply Hr.
  - rewrite !loop_runs. cbn [snd extend calls start app]. apply Hc.
  - intros w. rewrite !loop_runs. cbn [snd]. rewrite extend_extend.
    now rewrite Hr, Hc.
Qed.

(** X6.  When [onnx] cannot be imported the script stops before it looks
    at the dictionary or the disk: it makes no load call, prints its two
    lines and nothing else, and does the same whatever the dictionary and
    the files are. *)
Theorem missing_onnx_touches_nothing
        (h h' : host) (items items' : list (string * string)) (w : world) :
  onnx_installed h = false ->
  onnx_installed h' = false ->
  check_all_models_on items h w = check_all_models_on items' h' w /\
  calls (snd (check_all_models_on items h w)) = calls w /\
  length (stdout (snd (check_all_models_on items h w))) = (length (stdout w) + 2)%nat.
Proof.
  intros Hi Hi'.
  rewrite (script_runs_missing h items w Hi), (script_runs_missing h' items' w Hi').
  cbn [snd extend stdout calls]. split; [reflexivity |]. split.
  - apply app_nil_r.
  - now rewrite length_app.
Qed.

Lemma missing_onnx_touches_nothing_witness :
  check_all_models Samples.host_no_onnx start =
  check_all_models_on [] (mkHost false (fun _ => inl (BadFile "")) "") start.
Proof.
  apply (missing_onnx_touches_nothing
           Samples.host_no_onnx (mkHost false (fun _ => inl (BadFile "")) "")
           models [] start eq_refl eq_refl).
Defined.



(* ===================================================================== *)
(** ** Further properties of the export script *)
(* ===================================================================== *)

Ltac run_export :=
  unfold ExportToOnnx.export_to_onnx, ExportToOnnx.import_YOLO, ExportToOnnx.main,
    ExportToOnnx.YOLO, ExportToOnnx.export;
  run; cbn [ExportToOnnx.weights].

(** X8.  The line "Export complete! Model saved as: yolo12n.onnx" is among
    the lines a run prints exactly when the run ends without a pending
    exception, and that happens exactly when the import, the constructor
    and the call of [export] all succeed. *)
Theorem completion_reported_only_on_success (h : ExportToOnnx.host) (w : world) :
  exists lines,
    stdout (snd (ExportToOnnx.export_to_onnx h w)) = stdout w ++ lines /\
    (In "Export complete! Model saved as: yolo12n.onnx" lines <->
     fst (ExportToOnnx.export_to_onnx h w) = inr tt) /\
    (fst (ExportToOnnx.export_to_onnx h w) = inr tt <->
     ExportToOnnx.ultralytics_installed h = true /\
     ExportToOnnx.YOLO_init h "yolo12n.pt" = None /\
     exists out, ExportToOnnx.export_answer h "yolo12n.pt" "onnx" true 14 = inr out).
Proof.
  run_export.
  destruct (ExportToOnnx.ultralytics_installed h).
  - destruct (ExportToOnnx.YOLO_init h "yolo12n.pt") as [e |];
      run; cbn [ExportToOnnx.weights].
    + exists ["Loading YOLOv12n model..."]. cbn [fst snd stdout].
      split; [reflexivity |]. split.
      * split; [intros [E | []]; discriminate | discriminate].
      * split; [discriminate | intros (_ & E & _); discriminate].
    + destruct (ExportToOnnx.export_answer h "yolo12n.pt" "onnx" true 14)
        as [e | out] eqn:Ee; cbn [fst snd stdout].
      * exists [ "Loading YOLOv12n model...";
                 "Exporting to ONNX format with opset 14 (compatible with ONNX Runtime 1.16)..." ].
        split; [now rewrite <- !app_assoc |]. split.
        -- split; [intros [E | [E | []]]; discriminate | discriminate].
        -- split; [discriminate | intros (_ & _ & out & E); discriminate].
      * exists [ "Loading YOLOv12n model...";
                 "Exporting to ONNX format with opset 14 (compatible with ONNX Runtime 1.16)...";
                 "Export complete! Model saved as: yolo12n.onnx";
                 "Note: Exported with opset 14 for ONNX Runtime 1.16 compatibility" ].
        split; [now rewrite <- !app_assoc |]. split.
        -- split; [reflexivity | intros _; right; right; left; reflexivity].
        -- split; [| reflexivity].
           intros _. split; [reflexivity |]. split; [reflexivity |]. now exists out.
  - exists []. cbn [fst snd stdout]. split; [now rewrite app_nil_r |]. split.
    + split; [intros [] | discriminate].
    + split; [discriminate | intros (E & _); discriminate].
Qed.

(** X9.  When [ultralytics] cannot be imported the export script has no
    handler for it: it prints nothing, calls nothing, and ends on the
    [ImportError] with exit status 1. *)
Theorem export_without_ultralytics (h : ExportToOnnx.host) (w : world) :
  ExportToOnnx.ultralytics_installed h = false ->
  exists msg,
    ExportToOnnx.export_to_onnx h w = (inl (ImportError msg), w) /\
    exit_code (fst (ExportToOnnx.export_to_onnx h w)) = 1.
Proof.
  intros Hi. exists "No module named 'ultralytics'".
  run_export. rewrite Hi. split; reflexivity.
Qed.

Lemma export_without_ultralytics_witness :
  exists msg,
    ExportToOnnx.export_to_onnx EdgeSamples.export_no_ultralytics start =
      (inl (ImportError msg), start) /\
    exit_code (fst (ExportToOnnx.export_to_onnx EdgeSamples.export_no_ultralytics start)) = 1.
Proof.
  exact (export_without_ultralytics EdgeSamples.export_no_ultralytics start eq_refl).
Defined.

(** X10.  When the constructor [YOLO('yolo12n.pt')] raises, the exception
    leaves the script unchanged: only "Loading YOLOv12n model..." was
    printed, [export] is never called, and the exit status is 1 when the
    exception is an [Exception]. *)
Theorem export_constructor_failure (h : ExportToOnnx.host) (w : world) (e : exn) :
  ExportToOnnx.ultralytics_installed h = true ->
  ExportToOnnx.YOLO_init h "yolo12n.pt" = Some e ->
  ExportToOnnx.export_to_onnx h w =
    (inl e, extend w ["Loading YOLOv12n model..."] [YOLO_call "yolo12n.pt"]) /\
  (is_Exception e = true ->
   exit_code (fst (ExportToOnnx.export_to_onnx h w)) = 1).
Proof.
  intros Hi Hy.
  assert (E : ExportToOnnx.export_to_onnx h w =
              (inl e, extend w ["Loading YOLOv12n model..."] [YOLO_call "yolo12n.pt"])).
  { run_export. rewrite Hi, Hy. f_equal. }
  split; [exact E |].
  intros He. rewrite E. destruct e; try reflexivity. discriminate.
Qed.

Lemma export_constructor_failure_witness :
  calls (snd (ExportToOnnx.export_to_onnx EdgeSamples.export_no_weights start)) =
    [YOLO_call "yolo12n.pt"] /\
  exit_code (fst (ExportToOnnx.export_to_onnx EdgeSamples.export_no_weights start)) = 1.
Proof.
  destruct (export_constructor_failure
              EdgeSamples.export_no_weights start
              (FileNotFoundError "yolo12n.pt does not exist") eq_refl eq_refl)
    as [E Hx].
  split; [now rewrite E | now apply Hx].
Defined.

(** X11.  When [model.export] raises, the exception leaves the script
    unchanged after the two progress lines: neither completion line is
    printed, and the exit status is 1 when the exception is an
    [Exception]. *)
Theorem export_call_failure (h : ExportToOnnx.host) (w : world) (e : exn) :
  ExportToOnnx.ultralytics_installed h = true ->
  ExportToOnnx.YOLO_init h "yolo12n.pt" = None ->
  ExportToOnnx.export_answer h "yolo12n.pt" "onnx" true 14 = inl e ->
  ExportToOnnx.export_to_onnx h w =
    (inl e,
     extend w
       [ "Loading YOLOv12n model...";
         "Exporting to ONNX format with opset 14 (compatible with ONNX Runtime 1.16)..." ]
       [ YOLO_call "yolo12n.pt"; export_call "yolo12n.pt" "onnx" true 14 ]) /\
  (is_Exception e = true ->
   exit_code (fst (ExportToOnnx.export_to_onnx h w)) = 1).
Proof.
  intros Hi Hy Hx.
  assert (E : ExportToOnnx.export_to_onnx h w =
              (inl e,
               extend w
                 [ "Loading YOLOv12n model...";
                   "Exporting to ONNX format with opset 14 (compatible with ONNX Runtime 1.16)..." ]
                 [ YOLO_call "yolo12n.pt"; export_call "yolo12n.pt" "onnx" true 14 ])).
  { run_export. rewrite Hi, Hy. run. cbn [ExportToOnnx.weights]. rewrite Hx.
    f_equal. same_world. }
  split; [exact E |].
  intros He. rewrite E. destruct e; try reflexivity. discriminate.
Qed.

Lemma export_call_failure_witness :
  stdout (snd (ExportToOnnx.export_to_onnx EdgeSamples.export_fails start)) =
    [ "Loading YOLOv12n model...";
      "Exporting to ONNX format with opset 14 (compatible with ONNX Runtime 1.16)..." ] /\
  exit_code (fst (ExportToOnnx.export_to_onnx EdgeSamples.export_fails start)) = 1.
Proof.
  destruct (export_call_failure
              EdgeSamples.export_fails start
              (OtherException "ONNX export failure") eq_refl eq_refl eq_refl)
    as [E Hx].
  split; [now rewrite E | now apply Hx].
Defined.
